(** * syft/serde.py: the simplify / serialize / compress pipeline

    A shallow embedding of [src/syft/serde.py] and the properties of its
    type-directed transform pipeline.

    The module is dynamically typed Python.  Its objects are modelled by the
    inductive [value], its exceptions by the error monad [result], its two
    module-level dictionaries [simplifiers] and [detailers] by [gmap]s keyed
    by the exact runtime type, and the libraries it imports (pickle, msgpack,
    lz4, the built-in [set] constructor) by the record [runtime]; the
    general theorems hold for every [runtime]. *)

From Stdlib Require Import ZArith List String Ascii Strings.Byte Floats.PrimFloat.
From stdpp Require Import base option list strings countable gmap.

Local Open Scope string_scope.
Local Open Scope Z_scope.
Local Open Scope list_scope.
Local Set Warnings "-register-all".

(** ** Runtime types *)

(** [type(obj)]: the classes the module meets.  [TClass name base] is a class
    declared as [class name(base)]. *)
Inductive pytype : Type :=
  | TObject
  | TNoneType
  | TBool
  | TInt
  | TFloat
  | TStr
  | TBytes
  | TList
  | TTuple
  | TSet
  | TDict
  | TTensor
  | TClass (name : string) (base : pytype).

#[global] Instance pytype_eq_dec : EqDecision pytype.
Proof. solve_decision. Defined.

Module PyTypeCode.

Fixpoint builtin_tag (t : pytype) : nat :=
  match t with
  | TObject => 0 | TNoneType => 1 | TBool => 2 | TInt => 3 | TFloat => 4
  | TStr => 5 | TBytes => 6 | TList => 7 | TTuple => 8 | TSet => 9
  | TDict => 10 | TTensor => 11
  | TClass _ base => builtin_tag base
  end%nat.

Fixpoint class_names (t : pytype) : list string :=
  match t with
  | TClass name base => name :: class_names base
  | _ => []
  end.

Definition of_tag (n : nat) : pytype :=
  match n with
  | 0 => TObject | 1 => TNoneType | 2 => TBool | 3 => TInt | 4 => TFloat
  | 5 => TStr | 6 => TBytes | 7 => TList | 8 => TTuple | 9 => TSet
  | 10 => TDict | _ => TTensor
  end%nat.

Definition encode (t : pytype) : nat * list string :=
  (builtin_tag t, class_names t).

Definition decode (c : nat * list string) : pytype :=
  foldr TClass (of_tag c.1) c.2.

End PyTypeCode.

#[global] Instance pytype_countable : Countable pytype.
Proof.
  refine (inj_countable' PyTypeCode.encode PyTypeCode.decode _).
  intros t. unfold PyTypeCode.decode, PyTypeCode.encode; simpl.
  induction t; simpl; try reflexivity.
  by rewrite IHt.
Defined.

(** [issubclass(t, s)] for single inheritance; [bool] derives from [int] and
    every class from [object]. *)
Fixpoint mro (t : pytype) : list pytype :=
  t :: match t with
       | TObject => []
       | TBool => [TInt; TObject]
       | TClass _ base => mro base
       | _ => [TObject]
       end.

Definition issubclass (t s : pytype) : bool := bool_decide (s ∈ mro t).

(** ** Objects *)

#[global] Instance byte_eq_dec : EqDecision byte := Byte.byte_eq_dec.

(** A tensor is carried through the module without being inspected; it is
    represented by its flat storage. *)
Definition tensor : Type := list byte.

Inductive value : Type :=
  | VNone
  | VBool (b : bool)
  | VInt (n : Z)
  | VFloat (x : float)
  | VStr (s : string)
  | VBytes (b : list byte)
  | VList (xs : list value)
  | VTuple (xs : list value)
  | VSet (xs : list value)            (* elements in iteration order *)
  | VDict (kvs : list (value * value))
  | VTensor (t : tensor)
  | VObject                           (* a plain [object()] *)
  | VInstance (cls : string) (base : value).
      (* an instance of [class cls(type(base))] holding the state of [base] *)

(** [type(obj)], the exact class of an object. *)
Fixpoint type_of (obj : value) : pytype :=
  match obj with
  | VNone => TNoneType
  | VBool _ => TBool
  | VInt _ => TInt
  | VFloat _ => TFloat
  | VStr _ => TStr
  | VBytes _ => TBytes
  | VList _ => TList
  | VTuple _ => TTuple
  | VSet _ => TSet
  | VDict _ => TDict
  | VTensor _ => TTensor
  | VObject => TObject
  | VInstance cls base => TClass cls (type_of base)
  end.

(** [isinstance(obj, s)]. *)
Definition isinstance (obj : value) (s : pytype) : bool :=
  issubclass (type_of obj) s.

(** ** Exceptions *)

Inductive exn : Type :=
  | KeyError
  | TypeError
  | ValueError
  | EOFError
  | UnpicklingError
  | RuntimeError
  | OtherError (name : string).

#[global] Instance exn_eq_dec : EqDecision exn.
Proof. solve_decision. Defined.

Inductive result (A : Type) : Type :=
  | Ok (a : A)
  | Raise (e : exn).

Arguments Ok {A} a.
Arguments Raise {A} e.

Definition bind {A B} (m : result A) (k : A -> result B) : result B :=
  match m with
  | Ok a => k a
  | Raise e => Raise e
  end.

Notation "x <- m ;; k" := (bind m (fun x => k))
  (at level 100, m at next level, right associativity).

(** [try: body  except KeyError: handler]. *)
Definition try_except_KeyError {A} (body : result A) (handler : result A)
  : result A :=
  match body with
  | Raise KeyError => handler
  | r => r
  end.

(** A Python callable of one argument. *)
Definition pycallable : Type := value -> result value.

(** What a caller may bind to a parameter: a data object or a function.
    Data objects of the model are not callable. *)
Inductive argument : Type :=
  | Data (v : value)
  | Func (f : pycallable).

(** ** Registry entries *)

(** The functions stored in [simplifiers]: the two of this module, or one
    registered from outside it. *)
Inductive simplifier : Type :=
  | SimplifyTorchTensor
  | SimplifyCollection
  | SimplifyExtern (f : pycallable).

(** The functions stored in [detailers]. *)
Inductive detailer : Type :=
  | DetailTorchTensor
  | DetailCollection
  | DetailExtern (f : pycallable).

(** ** The imported libraries *)

(** The module delegates to pickle, msgpack and lz4 and to operations of the
    interpreter on objects it does not build itself.  None of them is part of
    the repository: they are the fields of [runtime], and the theorems hold
    for every [runtime]. *)
Record runtime : Type := {
  pickle_dumps : pycallable;
  pickle_loads : pycallable;
  msgpack_dumps : pycallable;
  msgpack_loads : pycallable;
  lz4_frame_compress : pycallable;
  lz4_frame_decompress : pycallable;
  (* [set(pieces)]: hashing and comparing the pieces; the elements of the
     new set in its iteration order *)
  set_of : list value -> result (list value);
  (* [bool(t)] for a tensor *)
  tensor_bool : tensor -> result bool;
  (* the loop and the constructor call of the two collection transforms on
     an object that is not exactly a list, a tuple or a set, under a given
     state of the registry *)
  simplify_other_collection :
    gmap pytype simplifier -> value -> result value;
  detail_other_collection :
    gmap pytype detailer -> value -> result value
}.

Section ForLoop.

Context {A B : Type}.
Variable body : A -> result B.

(** [pieces = list();  for part in xs: pieces.append(body(part))]: the
    pieces in order, or the first exception raised by [body]. *)
Fixpoint for_each (xs : list A) : result (list B) :=
  match xs with
  | [] => Ok []
  | part :: rest =>
      piece <- body part ;;
      pieces <- for_each rest ;;
      Ok (piece :: pieces)
  end.

End ForLoop.

Section Serde.

Variable rt : runtime.

(** *** Truth value of an object, as tested by [if x:] *)

Fixpoint truth (v : value) : result bool :=
  match v with
  | VNone => Ok false
  | VBool b => Ok b
  | VInt n => Ok (negb (n =? 0))
  | VFloat x => Ok (negb (PrimFloat.eqb x 0%float))
  | VStr s => Ok (negb (String.eqb s ""))
  | VBytes b => Ok (negb (Nat.eqb (length b) 0))
  | VList xs | VTuple xs | VSet xs => Ok (negb (Nat.eqb (length xs) 0))
  | VDict kvs => Ok (negb (Nat.eqb (length kvs) 0))
  | VTensor t => tensor_bool rt t
  | VObject => Ok true
  | VInstance _ base => truth base
  end.

Definition truthy (a : argument) : result bool :=
  match a with
  | Data v => truth v
  | Func _ => Ok true
  end.

(** [f(x)] where [f] is whatever the name is bound to. *)
Definition call (f : argument) (x : value) : result value :=
  match f with
  | Func g => g x
  | Data _ => Raise TypeError      (* 'bool' object is not callable *)
  end.

(** *** Chosen compression algorithm *)

Definition compress (decompressed_input_bin : value) : result value :=
  lz4_frame_compress rt decompressed_input_bin.

Definition decompress (compressed_input_bin : value) : result value :=
  lz4_frame_decompress rt compressed_input_bin.

(** *** Torch tensor *)

Definition _simplify_torch_tensor (tensor : value) : result value :=
  pickle_dumps rt tensor.

Definition _detail_torch_tensor (tensor : value) : result value :=
  pickle_loads rt tensor.

(** *** Collections *)

(** [my_type(pieces)] where [pieces] is a list.  [_simplify_collection]
    reaches it for the three container classes only. *)
Definition construct (my_type : pytype) (pieces : list value)
  : result value :=
  match my_type with
  | TList => Ok (VList pieces)
  | TTuple => Ok (VTuple pieces)
  | TSet => elements <- set_of rt pieces ;; Ok (VSet elements)
  | _ => Raise TypeError
  end.

(** [_simplify_collection]; the router it calls back, under the current
    state of the registry, is the parameter [_simplify]. *)
Definition _simplify_collection (simplifiers : gmap pytype simplifier)
    (_simplify : value -> result value) (my_collection : value)
  : result value :=
  let my_type := type_of my_collection in
  match my_collection with
  | VList xs | VTuple xs | VSet xs =>
      pieces <- for_each _simplify xs ;;
      construct my_type pieces
  | _ => simplify_other_collection rt simplifiers my_collection
  end.

Definition _detail_collection (detailers : gmap pytype detailer)
    (_detail : value -> result value) (my_collection : value)
  : result value :=
  match my_collection with
  | VList xs | VTuple xs | VSet xs =>
      pieces <- for_each _detail xs ;;
      Ok (VList pieces)
  | _ => detail_other_collection rt detailers my_collection
  end.

(** *** High level simplification router *)

(** [simplifiers[type(obj)](obj)] once the entry is found. *)
Definition run_simplifier (simplifiers : gmap pytype simplifier)
    (_simplify : value -> result value) (f : simplifier) (obj : value)
  : result value :=
  match f with
  | SimplifyTorchTensor => _simplify_torch_tensor obj
  | SimplifyCollection => _simplify_collection simplifiers _simplify obj
  | SimplifyExtern g => g obj
  end.

Definition run_detailer (detailers : gmap pytype detailer)
    (_detail : value -> result value) (f : detailer) (obj : value)
  : result value :=
  match f with
  | DetailTorchTensor => _detail_torch_tensor obj
  | DetailCollection => _detail_collection detailers _detail obj
  | DetailExtern g => g obj
  end.

(** [d[k]] on a dictionary: the entry, or [KeyError]. *)
Definition getitem {V} (d : gmap pytype V) (k : pytype) : result V :=
  match d !! k with
  | Some f => Ok f
  | None => Raise KeyError
  end.

Fixpoint _simplify (simplifiers : gmap pytype simplifier) (obj : value)
    {struct obj} : result value :=
  try_except_KeyError
    (f <- getitem simplifiers (type_of obj) ;;
     run_simplifier simplifiers (_simplify simplifiers) f obj)
    (Ok obj).

Fixpoint _detail (detailers : gmap pytype detailer) (obj : value)
    {struct obj} : result value :=
  let t := type_of obj in
  match detailers !! t with
  | Some f => run_detailer detailers (_detail detailers) f obj
  | None => Ok obj
  end.

(** *** High level public functions *)

(** [serialize(obj, compress)].  Inside the body the name [compress] is
    the parameter, as in the source: it hides the module-level function of
    the same name. *)
Definition serialize (simplifiers : gmap pytype simplifier)
    (obj : value) (compress : argument) : result value :=
  simple_objects <- _simplify simplifiers obj ;;
  binary <- msgpack_dumps rt simple_objects ;;
  test <- truthy compress ;;
  if test : bool then call compress binary else Ok binary.

Definition deserialize (detailers : gmap pytype detailer)
    (binary : value) (compressed : argument) : result value :=
  test <- truthy compressed ;;
  binary <- (if test : bool then decompress binary else Ok binary) ;;
  simple_objects <- msgpack_loads rt binary ;;
  _detail detailers simple_objects.

End Serde.

(** ** The two module-level dictionaries, as the module leaves them *)

Definition simplifiers : gmap pytype simplifier :=
  <[TSet := SimplifyCollection]>
    (<[TList := SimplifyCollection]>
      (<[TTuple := SimplifyCollection]>
        (<[TTensor := SimplifyTorchTensor]> ∅))).

Definition detailers : gmap pytype detailer :=
  <[TBytes := DetailTorchTensor]>
    (<[TList := DetailCollection]>
      (<[TTuple := DetailCollection]> ∅)).

(** ** Compositions the properties are about *)

(** [deserialize(serialize(obj, flag), flag)], an exception of the inner call
    reaching the caller before [deserialize] runs. *)
Definition roundtrip (rt : runtime) (obj : value) (flag : argument)
  : result value :=
  binary <- serialize rt simplifiers obj flag ;;
  deserialize rt detailers binary flag.

(** [detail(simplify(v))] under the module's registries. *)
Definition detail_simplify (rt : runtime) (v : value) : result value :=
  simple <- _simplify rt simplifiers v ;;
  _detail rt detailers simple.

(** The primitive kinds of the wire-safe set. *)
Definition wire_primitive (v : value) : bool :=
  match v with
  | VNone | VBool _ | VInt _ | VFloat _ | VStr _ | VBytes _ => true
  | _ => false
  end.

(** ** Objects the two traversals leave as they are *)

(** No tensor and no set is met by the traversal of [_simplify]: it descends
    through lists and tuples only, so what a dictionary or an instance holds
    does not matter. *)
Fixpoint already_simple (v : value) : bool :=
  match v with
  | VList xs | VTuple xs => forallb already_simple xs
  | VTensor _ | VSet _ => false
  | _ => true
  end.

(** No byte string and no tuple is met by the traversal of [_detail], which
    descends through lists (a tuple would come back as a list). *)
Fixpoint already_detailed (v : value) : bool :=
  match v with
  | VList xs => forallb already_detailed xs
  | VTuple _ | VBytes _ => false
  | _ => true
  end.

(** No set is met by the traversal of [_simplify]. *)
Fixpoint set_free (v : value) : bool :=
  match v with
  | VList xs | VTuple xs => forallb set_free xs
  | VSet _ => false
  | _ => true
  end.

(** A transform registered from outside the module, [lambda obj: {}[obj]],
    for a class [Foo]. *)
Definition failing_lookup : pycallable := fun _ => Raise KeyError.

Definition Foo : pytype := TClass "Foo" TObject.

Definition simplifiers_with_Foo : gmap pytype simplifier :=
  <[Foo := SimplifyExtern failing_lookup]> simplifiers.

Definition detailers_with_Foo : gmap pytype detailer :=
  <[Foo := DetailExtern failing_lookup]> detailers.

(** ** One runtime, to run the module on concrete objects

    [Sample] is a small instance of [runtime]: the fix-format fragment of
    msgpack, a framing compressor and a tagging pickler for tensors.  It is
    used to evaluate the definitions above on concrete objects; only the
    closed statements that name it depend on it. *)
Module Sample.

Definition byte_val (b : byte) : Z := Z.of_N (Byte.to_N b).

Definition byte_of (n : Z) : byte :=
  match Byte.of_N (Z.to_N n) with
  | Some b => b
  | None => x00
  end.

Fixpoint value_eqb (a b : value) {struct a} : bool :=
  let all2 :=
    fix all2 (xs ys : list value) {struct xs} : bool :=
      match xs, ys with
      | [], [] => true
      | x :: xs', y :: ys' => value_eqb x y && all2 xs' ys'
      | _, _ => false
      end in
  match a, b with
  | VNone, VNone => true
  | VBool x, VBool y => Bool.eqb x y
  | VInt x, VInt y => Z.eqb x y
  | VFloat x, VFloat y => PrimFloat.eqb x y
  | VStr x, VStr y => String.eqb x y
  | VBytes x, VBytes y => bool_decide (x = y)
  | VList xs, VList ys => all2 xs ys
  | VTuple xs, VTuple ys => all2 xs ys
  | VSet xs, VSet ys => all2 xs ys
  | VDict xs, VDict ys =>
      (fix alld (xs ys : list (value * value)) {struct xs} : bool :=
         match xs, ys with
         | [], [] => true
         | (k, v) :: xs', (k', v') :: ys' =>
             value_eqb k k' && value_eqb v v' && alld xs' ys'
         | _, _ => false
         end) xs ys
  | VTensor x, VTensor y => bool_decide (x = y)
  | VObject, VObject => true
  | VInstance c x, VInstance d y => String.eqb c d && value_eqb x y
  | _, _ => false
  end.

(** [set(pieces)]: the first occurrence of each piece is kept. *)
Fixpoint distinct (seen pieces : list value) : list value :=
  match pieces with
  | [] => []
  | p :: rest =>
      if existsb (value_eqb p) seen then distinct seen rest
      else p :: distinct (p :: seen) rest
  end.

(** *** pickle: a tag byte in front of the tensor's storage *)

Definition dumps (obj : value) : result value :=
  match obj with
  | VTensor t => Ok (VBytes (x80 :: t))
  | _ => Raise (OtherError "PicklingError")
  end.

Definition loads (data : value) : result value :=
  match data with
  | VBytes [] => Raise EOFError            (* Ran out of input *)
  | VBytes (x80 :: t) => Ok (VTensor t)
  | VBytes _ => Raise UnpicklingError
  | _ => Raise TypeError
  end.

(** *** lz4.frame: the frame magic number in front of the data *)

Definition magic : list byte := [x04; x22; x4d; x18].

Definition frame_compress (data : value) : result value :=
  match data with
  | VBytes b => Ok (VBytes (magic ++ b))
  | _ => Raise TypeError
  end.

Definition frame_decompress (data : value) : result value :=
  match data with
  | VBytes (x04 :: x22 :: x4d :: x18 :: b) => Ok (VBytes b)
  | VBytes _ => Raise RuntimeError
  | _ => Raise TypeError
  end.

(** *** msgpack: nil, bool, fixint, fixstr, bin 8 and fixarray *)

Fixpoint pack (obj : value) : result (list byte) :=
  let pack_all :=
    fix pack_all (xs : list value) : result (list byte) :=
      match xs with
      | [] => Ok []
      | x :: rest =>
          b <- pack x ;; bs <- pack_all rest ;; Ok (b ++ bs)
      end in
  let array (xs : list value) :=
    if (length xs <? 16)%nat
    then bs <- pack_all xs ;; Ok (byte_of (144 + Z.of_nat (length xs)) :: bs)
    else Raise (OtherError "outside the sample formats") in
  match obj with
  | VNone => Ok [xc0]
  | VBool false => Ok [xc2]
  | VBool true => Ok [xc3]
  | VInt n =>
      if (0 <=? n) && (n <? 128) then Ok [byte_of n]
      else if (-32 <=? n) && (n <? 0) then Ok [byte_of (256 + n)]
      else Raise (OtherError "outside the sample formats")
  | VStr s =>
      let b := list_byte_of_string s in
      if (length b <? 32)%nat
      then Ok (byte_of (160 + Z.of_nat (length b)) :: b)
      else Raise (OtherError "outside the sample formats")
  | VBytes b =>
      if (length b <? 256)%nat
      then Ok (xc4 :: byte_of (Z.of_nat (length b)) :: b)
      else Raise (OtherError "outside the sample formats")
  | VList xs => array xs
  | VTuple xs => array xs
  | VFloat _ | VDict _ => Raise (OtherError "outside the sample formats")
  | VSet _ | VTensor _ | VObject | VInstance _ _ => Raise TypeError
  end.

Definition packb (obj : value) : result value :=
  b <- pack obj ;; Ok (VBytes b).

Fixpoint unpack (fuel : nat) (bs : list byte) : option (value * list byte) :=
  match fuel, bs with
  | S fuel', tag :: rest =>
      let t := byte_val tag in
      if t <? 128 then Some (VInt t, rest)
      else if t <? 144 then None
      else if t <? 160 then
        (fix items (n : nat) (bs : list byte) {struct n}
           : option (value * list byte) :=
           match n with
           | O => Some (VList [], bs)
           | S n' =>
               match unpack fuel' bs with
               | Some (x, bs') =>
                   match items n' bs' with
                   | Some (VList xs, bs'') => Some (VList (x :: xs), bs'')
                   | _ => None
                   end
               | None => None
               end
           end) (Z.to_nat (t - 144)) rest
      else if t <? 192 then
        let n := Z.to_nat (t - 160) in
        if (n <=? length rest)%nat
        then Some (VStr (string_of_list_byte (take n rest)), drop n rest)
        else None
      else if t =? 192 then Some (VNone, rest)
      else if t =? 194 then Some (VBool false, rest)
      else if t =? 195 then Some (VBool true, rest)
      else if t =? 196 then
        match rest with
        | len :: data =>
            let n := Z.to_nat (byte_val len) in
            if (n <=? length data)%nat
            then Some (VBytes (take n data), drop n data)
            else None
        | [] => None
        end
      else if 224 <=? t then Some (VInt (t - 256), rest)
      else None
  | _, _ => None
  end.

Definition unpackb (data : value) : result value :=
  match data with
  | VBytes bs =>
      match unpack (S (length bs)) bs with
      | Some (obj, []) => Ok obj
      | Some (_, _ :: _) => Raise (OtherError "ExtraData")
      | None => Raise (OtherError "UnpackValueError")
      end
  | _ => Raise TypeError
  end.

Definition rt : runtime := {|
  pickle_dumps := dumps;
  pickle_loads := loads;
  msgpack_dumps := packb;
  msgpack_loads := unpackb;
  lz4_frame_compress := frame_compress;
  lz4_frame_decompress := frame_decompress;
  set_of := fun pieces => Ok (distinct [] pieces);
  tensor_bool := fun t =>
    match t with
    | [b] => Ok (negb (Z.eqb (byte_val b) 0))
    | _ => Raise RuntimeError
    end;
  simplify_other_collection := fun _ _ => Raise TypeError;
  detail_other_collection := fun _ _ => Raise TypeError
|}.

End Sample.

(** [Sample.rt] with a pickler that refuses the empty tensor, to run the
    module on an object whose simplification raises. *)
Definition refusing_dumps : pycallable :=
  fun obj =>
    match obj with
    | VTensor [] => Raise RuntimeError
    | _ => Sample.dumps obj
    end.

Definition refusing_rt : runtime := {|
  pickle_dumps := refusing_dumps;
  pickle_loads := pickle_loads Sample.rt;
  msgpack_dumps := msgpack_dumps Sample.rt;
  msgpack_loads := msgpack_loads Sample.rt;
  lz4_frame_compress := lz4_frame_compress Sample.rt;
  lz4_frame_decompress := lz4_frame_decompress Sample.rt;
  set_of := set_of Sample.rt;
  tensor_bool := tensor_bool Sample.rt;
  simplify_other_collection := simplify_other_collection Sample.rt;
  detail_other_collection := detail_other_collection Sample.rt
|}.

(** ** Unfolding equations and registry facts *)

Section Equations.

Variable rt : runtime.

Lemma _simplify_eq (reg : gmap pytype simplifier) (obj : value) :
  _simplify rt reg obj =
  try_except_KeyError
    (f <- getitem reg (type_of obj) ;;
     run_simplifier rt reg (_simplify rt reg) f obj)
    (Ok obj).
Proof. destruct obj; reflexivity. Qed.

Lemma _detail_eq (reg : gmap pytype detailer) (obj : value) :
  _detail rt reg obj =
  match reg !! type_of obj with
  | Some f => run_detailer rt reg (_detail rt reg) f obj
  | None => Ok obj
  end.
Proof. destruct obj; reflexivity. Qed.

Lemma getitem_Some {V} (d : gmap pytype V) k f :
  d !! k = Some f -> getitem d k = Ok f.
Proof. unfold getitem; intros ->; reflexivity. Qed.

Lemma getitem_None {V} (d : gmap pytype V) k :
  d !! k = None -> getitem d k = Raise KeyError.
Proof. unfold getitem; intros ->; reflexivity. Qed.

(** The router with an entry found: the entry runs, and a [KeyError] it
    raises is taken for a missing entry. *)
Lemma _simplify_registered reg obj f :
  reg !! type_of obj = Some f ->
  _simplify rt reg obj =
  try_except_KeyError
    (run_simplifier rt reg (_simplify rt reg) f obj) (Ok obj).
Proof.
  intros Hf. rewrite _simplify_eq, (getitem_Some _ _ _ Hf). reflexivity.
Qed.

Lemma _simplify_unregistered reg obj :
  reg !! type_of obj = None -> _simplify rt reg obj = Ok obj.
Proof.
  intros Hf. rewrite _simplify_eq, (getitem_None _ _ Hf). reflexivity.
Qed.

Lemma _detail_registered reg obj f :
  reg !! type_of obj = Some f ->
  _detail rt reg obj = run_detailer rt reg (_detail rt reg) f obj.
Proof. intros Hf. rewrite _detail_eq, Hf. reflexivity. Qed.

Lemma _detail_unregistered reg obj :
  reg !! type_of obj = None -> _detail rt reg obj = Ok obj.
Proof. intros Hf. rewrite _detail_eq, Hf. reflexivity. Qed.

End Equations.

Section ForLoopFacts.

Context {A B : Type}.
Variable body : A -> result B.

Lemma for_each_Forall2 xs ys :
  Forall2 (fun x y => body x = Ok y) xs ys -> for_each body xs = Ok ys.
Proof.
  induction 1 as [|x y xs ys Hx _ IH]; simpl.
  - reflexivity.
  - rewrite Hx; simpl. rewrite IH; reflexivity.
Qed.

Lemma for_each_Ok_inv xs ys :
  for_each body xs = Ok ys -> Forall2 (fun x y => body x = Ok y) xs ys.
Proof.
  revert ys; induction xs as [|x xs IH]; simpl; intros ys H.
  - injection H as <-. constructor.
  - destruct (body x) as [y|e] eqn:Hx; simpl in H; [|discriminate].
    destruct (for_each body xs) as [ys'|e] eqn:Hxs; simpl in H;
      [|discriminate].
    injection H as <-. constructor; [assumption | apply IH; reflexivity].
Qed.

Lemma for_each_length xs ys :
  for_each body xs = Ok ys -> length ys = length xs.
Proof.
  intros H. apply for_each_Ok_inv in H.
  symmetry. eapply Forall2_length; eassumption.
Qed.

End ForLoopFacts.

(** What the module registers. *)
Lemma simplifiers_lookup t :
  simplifiers !! t =
  match t with
  | TTensor => Some SimplifyTorchTensor
  | TTuple | TList | TSet => Some SimplifyCollection
  | _ => None
  end.
Proof.
  unfold simplifiers.
  destruct t; repeat (rewrite lookup_insert_ne by discriminate);
    first [apply lookup_insert_eq | apply lookup_empty].
Qed.

Lemma detailers_lookup t :
  detailers !! t =
  match t with
  | TBytes => Some DetailTorchTensor
  | TTuple | TList => Some DetailCollection
  | _ => None
  end.
Proof.
  unfold detailers.
  destruct t; repeat (rewrite lookup_insert_ne by discriminate);
    first [apply lookup_insert_eq | apply lookup_empty].
Qed.

(** ** The pipeline: [serialize] and [deserialize] *)

Section Pipeline.

Variable rt : runtime.
Variable reg : gmap pytype simplifier.

(** With a data object as flag, the branch taken on a true flag calls the
    flag itself. *)
Lemma serialize_true_flag obj simple binary v :
  _simplify rt reg obj = Ok simple ->
  msgpack_dumps rt simple = Ok binary ->
  truth rt v = Ok true ->
  serialize rt reg obj (Data v) = Raise TypeError.
Proof.
  intros Hs Hm Ht. unfold serialize. rewrite Hs; simpl.
  rewrite Hm; simpl. rewrite Ht; reflexivity.
Qed.

(** [serialize(obj, True)] never returns. *)
Lemma serialize_True_never_returns obj :
  exists e, serialize rt reg obj (Data (VBool true)) = Raise e.
Proof.
  unfold serialize.
  destruct (_simplify rt reg obj) as [simple|e]; simpl; [|eauto].
  destruct (msgpack_dumps rt simple) as [binary|e]; simpl; eauto.
Qed.

(** The compressed bytes are returned when the caller binds the parameter
    to the compression function itself. *)
Lemma serialize_with_function obj simple binary :
  _simplify rt reg obj = Ok simple ->
  msgpack_dumps rt simple = Ok binary ->
  serialize rt reg obj (Func (compress rt)) = compress rt binary.
Proof.
  intros Hs Hm. unfold serialize. rewrite Hs; simpl.
  rewrite Hm; reflexivity.
Qed.

Lemma serialize_False obj simple binary :
  _simplify rt reg obj = Ok simple ->
  msgpack_dumps rt simple = Ok binary ->
  serialize rt reg obj (Data (VBool false)) = Ok binary.
Proof.
  intros Hs Hm. unfold serialize. rewrite Hs; simpl.
  rewrite Hm; reflexivity.
Qed.

End Pipeline.

(** The round trip with the flag [True] never returns either. *)
Lemma roundtrip_True_never_returns rt obj :
  exists e, roundtrip rt obj (Data (VBool true)) = Raise e.
Proof.
  unfold roundtrip.
  destruct (serialize_True_never_returns rt simplifiers obj) as [e ->].
  simpl; eauto.
Qed.

(** Without compression, a null, boolean, integer, float or string that
    msgpack encodes and decodes faithfully survives the round trip. *)
Lemma roundtrip_uncompressed_primitive rt v binary :
  wire_primitive v = true ->
  type_of v <> TBytes ->
  msgpack_dumps rt v = Ok binary ->
  msgpack_loads rt binary = Ok v ->
  roundtrip rt v (Data (VBool false)) = Ok v.
Proof.
  intros Hv Hb Hd Hl. unfold roundtrip.
  assert (Hs : simplifiers !! type_of v = None).
  { destruct v; try discriminate Hv; try apply simplifiers_lookup. }
  rewrite (serialize_False rt simplifiers v v binary);
    [| apply _simplify_unregistered, Hs | exact Hd].
  cbn [bind]. unfold deserialize. cbn [truthy truth bind].
  rewrite Hl. cbn [bind].
  apply _detail_unregistered.
  destruct v; try discriminate Hv; try apply detailers_lookup.
  contradiction Hb. reflexivity.
Qed.

(** C1 (code at the failing input): [serialize(1, True)] does not return
    the compressed encoding of [1]; the call of the shadowing parameter
    raises [TypeError]. *)
Theorem serialize_compress_flag_raises :
  serialize Sample.rt simplifiers (VInt 1) (Data (VBool true))
  = Raise TypeError.
Proof. vm_compute. reflexivity. Qed.

(** C2 (code at the failing input): the object [1] survives the round trip
    without compression, and with the compression flag set the round trip
    raises [TypeError] instead of giving [1] back. *)
Theorem roundtrip_compressed_raises :
  roundtrip Sample.rt (VInt 1) (Data (VBool false)) = Ok (VInt 1) /\
  roundtrip Sample.rt (VInt 1) (Data (VBool true)) = Raise TypeError.
Proof. split; vm_compute; reflexivity. Qed.

(** ** The router [_simplify] *)

(** C3: a value whose exact type has no entry in the simplify-side registry
    is returned by [_simplify] unchanged. *)
Theorem simplify_passes_unregistered
    (rt : runtime) (reg : gmap pytype simplifier) (v : value) :
  reg !! type_of v = None -> _simplify rt reg v = Ok v.
Proof. apply _simplify_unregistered. Qed.

Lemma simplify_passes_unregistered_witness :
  simplifiers !! type_of (VStr "k") = None /\
  _simplify Sample.rt simplifiers (VStr "k") = Ok (VStr "k").
Proof.
  split.
  - apply simplifiers_lookup.
  - apply (simplify_passes_unregistered Sample.rt simplifiers (VStr "k")).
    apply simplifiers_lookup.
Defined.

(** ** [detail] after [simplify] on primitives *)

Lemma detail_simplify_bytes rt b :
  detail_simplify rt (VBytes b) = pickle_loads rt (VBytes b).
Proof.
  unfold detail_simplify.
  rewrite _simplify_unregistered by apply simplifiers_lookup. cbn [bind].
  rewrite (_detail_registered rt detailers (VBytes b) DetailTorchTensor)
    by apply detailers_lookup.
  reflexivity.
Qed.

(** Whatever the pickler, the blob of a tensor it can read back does not come
    back as that blob. *)
Lemma detail_simplify_pickled_blob rt t blob :
  pickle_loads rt (VBytes blob) = Ok (VTensor t) ->
  detail_simplify rt (VBytes blob) = Ok (VTensor t) /\
  VTensor t <> VBytes blob.
Proof.
  intros Hl. rewrite detail_simplify_bytes. split; [assumption | discriminate].
Qed.

(** C4 (counterexample): the empty byte string is a wire-safe primitive, and
    [detail(simplify(b""))] is not [b""]: it is the exception raised by the
    unpickler on empty input. *)
Lemma detail_simplify_bytes_counterexample :
  wire_primitive (VBytes []) = true /\
  detail_simplify Sample.rt (VBytes []) = Raise EOFError /\
  detail_simplify Sample.rt (VBytes []) <> Ok (VBytes []).
Proof. repeat split; vm_compute; [reflexivity.. | discriminate]. Qed.

(** C4 (amended): for a null, boolean, integer, float or string,
    [detail(simplify(v))] is [v]; for a byte string it is the result of
    [pickle.loads] on it. *)
Theorem detail_simplify_primitive (rt : runtime) (v : value) :
  wire_primitive v = true ->
  detail_simplify rt v =
  match v with
  | VBytes _ => pickle_loads rt v
  | _ => Ok v
  end.
Proof.
  intros Hv.
  destruct v; try discriminate Hv; try apply detail_simplify_bytes;
    unfold detail_simplify;
    (rewrite _simplify_unregistered by apply simplifiers_lookup); cbn [bind];
    apply _detail_unregistered, detailers_lookup.
Qed.

Lemma detail_simplify_primitive_witness :
  wire_primitive (VStr "a") = true /\
  detail_simplify Sample.rt (VStr "a") = Ok (VStr "a").
Proof.
  split; [reflexivity |].
  apply (detail_simplify_primitive Sample.rt (VStr "a")). reflexivity.
Defined.

(** ** The collection transforms *)

Section Collections.

Variable rt : runtime.

Lemma simplify_collection_pieces reg self xs ys (c : value) :
  (c = VList xs \/ c = VTuple xs \/ c = VSet xs) ->
  Forall2 (fun x y => self x = Ok y) xs ys ->
  _simplify_collection rt reg self c = construct rt (type_of c) ys.
Proof.
  intros Hc Hxs. apply for_each_Forall2 in Hxs.
  destruct Hc as [-> | [-> | ->]]; simpl; rewrite Hxs; reflexivity.
Qed.

Lemma detail_collection_pieces reg self xs ys (c : value) :
  (c = VList xs \/ c = VTuple xs \/ c = VSet xs) ->
  Forall2 (fun x y => self x = Ok y) xs ys ->
  _detail_collection rt reg self c = Ok (VList ys).
Proof.
  intros Hc Hxs. apply for_each_Forall2 in Hxs.
  destruct Hc as [-> | [-> | ->]]; simpl; rewrite Hxs; reflexivity.
Qed.

(** The first exception raised on an element leaves the loop. *)
Lemma for_each_raises {A B} (body : A -> result B) done x rest ys e :
  Forall2 (fun x y => body x = Ok y) done ys ->
  body x = Raise e ->
  for_each body (done ++ x :: rest) = Raise e.
Proof.
  induction 1 as [|a b done ys Ha _ IH]; simpl; intros Hx.
  - rewrite Hx; reflexivity.
  - rewrite Ha; simpl. rewrite (IH Hx); reflexivity.
Qed.

End Collections.

(** C5: on a list, a tuple or a set, [_simplify] returns an object of the
    same class built from the simplified elements taken in iteration order:
    the list and the tuple of the pieces in that order, and the set that
    [set(pieces)] builds. *)
Theorem simplify_collection_same_kind
    (rt : runtime) (xs ys : list value) :
  Forall2 (fun x y => _simplify rt simplifiers x = Ok y) xs ys ->
  _simplify rt simplifiers (VList xs) = Ok (VList ys) /\
  _simplify rt simplifiers (VTuple xs) = Ok (VTuple ys) /\
  (forall elements, set_of rt ys = Ok elements ->
     _simplify rt simplifiers (VSet xs) = Ok (VSet elements)).
Proof.
  intros Hxs. split; [|split; [|intros elements Hset]].
  - rewrite (_simplify_registered rt simplifiers (VList xs) SimplifyCollection)
      by apply simplifiers_lookup.
    cbn [run_simplifier].
    rewrite (simplify_collection_pieces rt _ _ xs ys) by auto.
    reflexivity.
  - rewrite (_simplify_registered rt simplifiers (VTuple xs) SimplifyCollection)
      by apply simplifiers_lookup.
    cbn [run_simplifier].
    rewrite (simplify_collection_pieces rt _ _ xs ys) by auto.
    reflexivity.
  - rewrite (_simplify_registered rt simplifiers (VSet xs) SimplifyCollection)
      by apply simplifiers_lookup.
    cbn [run_simplifier].
    rewrite (simplify_collection_pieces rt _ _ xs ys) by auto.
    simpl. rewrite Hset. reflexivity.
Qed.

Lemma simplify_collection_same_kind_witness :
  let xs := [VTensor [x01]; VInt 2; VTuple [VTensor [x03]]] in
  let ys := [VBytes [x80; x01]; VInt 2; VTuple [VBytes [x80; x03]]] in
  Forall2 (fun x y => _simplify Sample.rt simplifiers x = Ok y) xs ys /\
  _simplify Sample.rt simplifiers (VList xs) = Ok (VList ys) /\
  _simplify Sample.rt simplifiers (VTuple xs) = Ok (VTuple ys) /\
  _simplify Sample.rt simplifiers (VSet xs) = Ok (VSet ys).
Proof.
  intros xs ys.
  assert (Hxs : Forall2
            (fun x y => _simplify Sample.rt simplifiers x = Ok y) xs ys).
  { repeat constructor; vm_compute; reflexivity. }
  destruct (simplify_collection_same_kind Sample.rt xs ys Hxs)
    as (Hlist & Htuple & Hset).
  refine (conj Hxs (conj Hlist (conj Htuple (Hset ys _)))).
  vm_compute. reflexivity.
Defined.

(** C6: on a tuple or a list, [_detail] returns the list of the detailed
    elements in order; the tuple is not rebuilt. *)
Theorem detail_collection_returns_list
    (rt : runtime) (xs ys : list value) :
  Forall2 (fun x y => _detail rt detailers x = Ok y) xs ys ->
  _detail rt detailers (VTuple xs) = Ok (VList ys) /\
  _detail rt detailers (VList xs) = Ok (VList ys).
Proof.
  intros Hxs. split.
  - rewrite (_detail_registered rt detailers (VTuple xs) DetailCollection)
      by apply detailers_lookup.
    cbn [run_detailer]. apply (detail_collection_pieces rt _ _ xs ys); auto.
  - rewrite (_detail_registered rt detailers (VList xs) DetailCollection)
      by apply detailers_lookup.
    cbn [run_detailer]. apply (detail_collection_pieces rt _ _ xs ys); auto.
Qed.

Lemma detail_collection_returns_list_witness :
  let xs := [VBytes [x80; x01]; VStr "a"; VTuple [VInt 5]] in
  let ys := [VTensor [x01]; VStr "a"; VList [VInt 5]] in
  Forall2 (fun x y => _detail Sample.rt detailers x = Ok y) xs ys /\
  _detail Sample.rt detailers (VTuple xs) = Ok (VList ys) /\
  _detail Sample.rt detailers (VList xs) = Ok (VList ys).
Proof.
  intros xs ys.
  assert (Hxs : Forall2
            (fun x y => _detail Sample.rt detailers x = Ok y) xs ys).
  { repeat constructor; vm_compute; reflexivity. }
  split; [exact Hxs |].
  exact (detail_collection_returns_list Sample.rt xs ys Hxs).
Defined.

(** On a set [_detail] finds no entry: the set comes back as it is, its
    elements not detailed. *)
Lemma detail_set_unchanged rt xs :
  _detail rt detailers (VSet xs) = Ok (VSet xs).
Proof. apply _detail_unregistered, detailers_lookup. Qed.

(** C7 (code at the failing input): the simplify-side registry has an entry
    for [set], the detail-side registry has none, and [_detail] returns a set
    holding a pickled tensor unchanged, where it details the same element of
    a list. *)
Theorem detail_set_not_registered :
  simplifiers !! TSet = Some SimplifyCollection /\
  detailers !! TSet = None /\
  _detail Sample.rt detailers (VSet [VBytes [x80; x01]])
  = Ok (VSet [VBytes [x80; x01]]) /\
  _detail Sample.rt detailers (VList [VBytes [x80; x01]])
  = Ok (VList [VTensor [x01]]).
Proof.
  split; [apply simplifiers_lookup |].
  split; [apply detailers_lookup |].
  split; vm_compute; reflexivity.
Qed.

(** ** Failures inside a registered transform *)

Section Failures.

Variable rt : runtime.

(** A [KeyError] raised by the transform itself is caught by the handler
    written for the missing entry. *)
Lemma simplify_swallows_KeyError reg obj f :
  reg !! type_of obj = Some f ->
  run_simplifier rt reg (_simplify rt reg) f obj = Raise KeyError ->
  _simplify rt reg obj = Ok obj.
Proof.
  intros Hf Hrun. rewrite (_simplify_registered rt reg obj f Hf), Hrun.
  reflexivity.
Qed.

(** Every other exception reaches the caller. *)
Lemma simplify_propagates_other reg obj f e :
  reg !! type_of obj = Some f ->
  run_simplifier rt reg (_simplify rt reg) f obj = Raise e ->
  e <> KeyError ->
  _simplify rt reg obj = Raise e.
Proof.
  intros Hf Hrun He. rewrite (_simplify_registered rt reg obj f Hf), Hrun.
  destruct e; try reflexivity. contradiction.
Qed.

(** [_detail] tests membership first and catches nothing. *)
Lemma detail_propagates reg obj f e :
  reg !! type_of obj = Some f ->
  run_detailer rt reg (_detail rt reg) f obj = Raise e ->
  _detail rt reg obj = Raise e.
Proof.
  intros Hf Hrun. rewrite (_detail_registered rt reg obj f Hf). exact Hrun.
Qed.

End Failures.

(** C8 (code at the failing input): the transform registered for [Foo]
    raises [KeyError] on an instance of [Foo], and [_simplify] returns that
    instance unchanged, where [_detail] with the same transform raises. *)
Theorem simplify_hides_transform_KeyError :
  let obj := VInstance "Foo" VObject in
  simplifiers_with_Foo !! type_of obj = Some (SimplifyExtern failing_lookup) /\
  failing_lookup obj = Raise KeyError /\
  _simplify Sample.rt simplifiers_with_Foo obj = Ok obj /\
  _detail Sample.rt detailers_with_Foo obj = Raise KeyError.
Proof.
  intros obj.
  assert (Hs : simplifiers_with_Foo !! type_of obj
               = Some (SimplifyExtern failing_lookup))
    by apply lookup_insert_eq.
  assert (Hd : detailers_with_Foo !! type_of obj
               = Some (DetailExtern failing_lookup))
    by apply lookup_insert_eq.
  refine (conj Hs (conj eq_refl (conj _ _))).
  - apply (simplify_swallows_KeyError _ _ _ _ Hs). reflexivity.
  - apply (detail_propagates _ _ _ _ _ Hd). reflexivity.
Qed.

(** ** Lookup by exact type *)

(** C9: in both routers the entry is looked up under the exact type of the
    value.  A value whose exact type has no entry passes through unchanged;
    nothing is assumed about its supertypes, so this holds as well when one
    of them has an entry. *)
Theorem lookup_by_exact_type
    (rt : runtime) (sreg : gmap pytype simplifier)
    (dreg : gmap pytype detailer) (v : value) :
  sreg !! type_of v = None ->
  dreg !! type_of v = None ->
  _simplify rt sreg v = Ok v /\ _detail rt dreg v = Ok v.
Proof.
  intros Hs Hd. split.
  - apply _simplify_unregistered, Hs.
  - apply _detail_unregistered, Hd.
Qed.

Lemma lookup_by_exact_type_witness :
  let v := VInstance "MyList" (VList [VTensor [x01]; VBytes [x80; x02]]) in
  isinstance v TList = true /\
  simplifiers !! TList = Some SimplifyCollection /\
  detailers !! TList = Some DetailCollection /\
  simplifiers !! type_of v = None /\
  detailers !! type_of v = None /\
  _simplify Sample.rt simplifiers v = Ok v /\
  _detail Sample.rt detailers v = Ok v.
Proof.
  intros v.
  assert (Hs : simplifiers !! type_of v = None) by apply simplifiers_lookup.
  assert (Hd : detailers !! type_of v = None) by apply detailers_lookup.
  destruct (lookup_by_exact_type Sample.rt simplifiers detailers v Hs Hd)
    as [Hsimplify Hdetail].
  refine (conj _ (conj _ (conj _ (conj Hs (conj Hd
            (conj Hsimplify Hdetail)))))).
  - vm_compute. reflexivity.
  - apply simplifiers_lookup.
  - apply detailers_lookup.
Defined.

(** ** Byte strings on the detail side *)

(** C10: whatever a byte string holds and wherever it comes from, [_detail]
    hands it to [pickle.loads] and returns what that call returns or
    raises. *)
Theorem detail_bytes_is_pickle_loads (rt : runtime) (v : value) :
  type_of v = TBytes ->
  _detail rt detailers v = pickle_loads rt v.
Proof.
  intros Ht.
  rewrite (_detail_registered rt detailers v DetailTorchTensor).
  - reflexivity.
  - rewrite Ht. apply detailers_lookup.
Qed.

Lemma detail_bytes_is_pickle_loads_witness :
  type_of (VBytes [x68; x69]) = TBytes /\
  _detail Sample.rt detailers (VBytes [x68; x69])
  = pickle_loads Sample.rt (VBytes [x68; x69]) /\
  pickle_loads Sample.rt (VBytes [x68; x69]) = Raise UnpicklingError.
Proof.
  split; [reflexivity |].
  split; [| reflexivity].
  apply (detail_bytes_is_pickle_loads Sample.rt (VBytes [x68; x69])).
  reflexivity.
Defined.

(** ** Further properties of the two routers *)

(** Induction on objects, with the elements of a list, tuple or set as
    induction hypotheses. *)
Lemma value_nested_ind (P : value -> Prop) :
  P VNone ->
  (forall b, P (VBool b)) ->
  (forall n, P (VInt n)) ->
  (forall x, P (VFloat x)) ->
  (forall s, P (VStr s)) ->
  (forall b, P (VBytes b)) ->
  (forall xs, Forall P xs -> P (VList xs)) ->
  (forall xs, Forall P xs -> P (VTuple xs)) ->
  (forall xs, Forall P xs -> P (VSet xs)) ->
  (forall kvs, P (VDict kvs)) ->
  (forall t, P (VTensor t)) ->
  P VObject ->
  (forall cls base, P base -> P (VInstance cls base)) ->
  forall v, P v.
Proof.
  intros HNone HBool HInt HFloat HStr HBytes HList HTuple HSet HDict HTensor
    HObject HInstance.
  refine (fix IH (v : value) : P v :=
            let all :=
              fix all (xs : list value) : Forall P xs :=
                match xs with
                | [] => List.Forall_nil P
                | x :: rest => List.Forall_cons P x rest (IH x) (all rest)
                end in
            match v with
            | VNone => HNone
            | VBool b => HBool b
            | VInt n => HInt n
            | VFloat x => HFloat x
            | VStr s => HStr s
            | VBytes b => HBytes b
            | VList xs => HList xs (all xs)
            | VTuple xs => HTuple xs (all xs)
            | VSet xs => HSet xs (all xs)
            | VDict kvs => HDict kvs
            | VTensor t => HTensor t
            | VObject => HObject
            | VInstance cls base => HInstance cls base (IH base)
            end).
Qed.

Section Routers.

Variable rt : runtime.

Lemma Forall2_diag {A} (f : A -> result A) (xs : list A) :
  Forall (fun x => f x = Ok x) xs -> Forall2 (fun x y => f x = Ok y) xs xs.
Proof. induction 1; constructor; assumption. Qed.

Lemma simplify_not_KeyError reg obj :
  _simplify rt reg obj <> Raise KeyError.
Proof.
  rewrite _simplify_eq.
  destruct (f <- getitem reg (type_of obj) ;;
            run_simplifier rt reg (_simplify rt reg) f obj) as [w|[]];
    discriminate.
Qed.

Lemma for_each_not_KeyError {A B} (body : A -> result B) xs :
  (forall x, body x <> Raise KeyError) ->
  for_each body xs <> Raise KeyError.
Proof.
  intros Hbody. induction xs as [|x xs IH]; simpl; [discriminate |].
  destruct (body x) as [y|e] eqn:Hx; simpl.
  - destruct (for_each body xs) as [ys|e]; simpl; [discriminate |].
    intros [= ->]. apply IH. reflexivity.
  - intros [= ->]. apply (Hbody x). assumption.
Qed.

(** The three registered containers, through the router. *)
Lemma simplify_container c xs :
  (c = VList xs \/ c = VTuple xs \/ c = VSet xs) ->
  _simplify rt simplifiers c =
  try_except_KeyError
    (pieces <- for_each (_simplify rt simplifiers) xs ;;
     construct rt (type_of c) pieces)
    (Ok c).
Proof.
  intros [-> | [-> | ->]];
    rewrite (_simplify_registered rt simplifiers _ SimplifyCollection)
      by apply simplifiers_lookup;
    reflexivity.
Qed.

Lemma simplify_sequence_Ok c xs ys :
  (c = VList xs \/ c = VTuple xs) ->
  Forall2 (fun x y => _simplify rt simplifiers x = Ok y) xs ys ->
  _simplify rt simplifiers c = construct rt (type_of c) ys.
Proof.
  intros Hc Hxs. rewrite (simplify_container c xs) by tauto.
  rewrite (for_each_Forall2 _ _ _ Hxs). cbn [bind].
  destruct Hc as [-> | ->]; reflexivity.
Qed.

Lemma simplify_sequence_inv c xs r :
  (c = VList xs \/ c = VTuple xs) ->
  _simplify rt simplifiers c = Ok r ->
  exists ys,
    construct rt (type_of c) ys = Ok r /\
    Forall2 (fun x y => _simplify rt simplifiers x = Ok y) xs ys.
Proof.
  intros Hc. rewrite (simplify_container c xs) by tauto.
  destruct (for_each (_simplify rt simplifiers) xs) as [ys|e] eqn:Hfor;
    cbn [bind].
  - intros Hr. exists ys. split.
    + destruct Hc as [-> | ->]; exact Hr.
    + apply for_each_Ok_inv. assumption.
  - destruct e; try discriminate.
    exfalso. revert Hfor. apply for_each_not_KeyError.
    intros x. apply simplify_not_KeyError.
Qed.

Lemma detail_sequence c xs :
  (c = VList xs \/ c = VTuple xs) ->
  _detail rt detailers c =
  (pieces <- for_each (_detail rt detailers) xs ;; Ok (VList pieces)).
Proof.
  intros [-> | ->];
    rewrite (_detail_registered rt detailers _ DetailCollection)
      by apply detailers_lookup;
    reflexivity.
Qed.

Lemma already_simple_fixed v :
  already_simple v = true -> _simplify rt simplifiers v = Ok v.
Proof.
  induction v as [| | | | | |xs IH|xs IH|xs IH| | | |cls base IH]
    using value_nested_ind; intros Hv; try discriminate Hv;
    try (apply _simplify_unregistered, simplifiers_lookup).
  - rewrite (simplify_sequence_Ok (VList xs) xs xs); [reflexivity | tauto |].
    apply Forall2_diag. simpl in Hv. rewrite forallb_forall in Hv.
    rewrite Forall_forall in IH |- *. intros x Hx.
    apply IH; [assumption |]. apply Hv. apply list_elem_of_In. assumption.
  - rewrite (simplify_sequence_Ok (VTuple xs) xs xs); [reflexivity | tauto |].
    apply Forall2_diag. simpl in Hv. rewrite forallb_forall in Hv.
    rewrite Forall_forall in IH |- *. intros x Hx.
    apply IH; [assumption |]. apply Hv. apply list_elem_of_In. assumption.
Qed.

Lemma already_detailed_fixed v :
  already_detailed v = true -> _detail rt detailers v = Ok v.
Proof.
  induction v as [| | | | | |xs IH|xs IH|xs IH| | | |cls base IH]
    using value_nested_ind; intros Hv; try discriminate Hv;
    try (apply _detail_unregistered, detailers_lookup).
  rewrite (detail_sequence (VList xs) xs) by tauto.
  rewrite (for_each_Forall2 _ xs xs); [reflexivity |].
  apply Forall2_diag. simpl in Hv. rewrite forallb_forall in Hv.
  rewrite Forall_forall in IH |- *. intros x Hx.
  apply IH; [assumption |]. apply Hv. apply list_elem_of_In. assumption.
Qed.

Lemma simplify_class v w :
  type_of v <> TTensor ->
  _simplify rt simplifiers v = Ok w ->
  type_of w = type_of v.
Proof.
  intros Hv.
  assert (Hpass : simplifiers !! type_of v = None ->
                  _simplify rt simplifiers v = Ok w -> type_of w = type_of v).
  { intros Hnone. rewrite (_simplify_unregistered rt _ _ Hnone).
    intros [= <-]. reflexivity. }
  destruct v; try (apply Hpass, simplifiers_lookup); try contradiction.
  - intros Hw.
    destruct (simplify_sequence_inv (VList xs) xs w) as (ys & Hc & _);
      [tauto | assumption |].
    injection Hc as <-. reflexivity.
  - intros Hw.
    destruct (simplify_sequence_inv (VTuple xs) xs w) as (ys & Hc & _);
      [tauto | assumption |].
    injection Hc as <-. reflexivity.
  - rewrite (simplify_container (VSet xs) xs) by tauto.
    destruct (for_each (_simplify rt simplifiers) xs) as [ys|e]; cbn [bind].
    + simpl. destruct (set_of rt ys) as [elements|e]; simpl.
      * intros [= <-]. reflexivity.
      * destruct e; try discriminate. intros [= <-]. reflexivity.
    + destruct e; try discriminate. simpl. intros [= <-]. reflexivity.
Qed.

Lemma simplify_element_error c done x rest ys e :
  (c = VList (done ++ x :: rest) \/ c = VTuple (done ++ x :: rest)
   \/ c = VSet (done ++ x :: rest)) ->
  Forall2 (fun x y => _simplify rt simplifiers x = Ok y) done ys ->
  _simplify rt simplifiers x = Raise e ->
  _simplify rt simplifiers c = Raise e.
Proof.
  intros Hc Hdone Hx.
  rewrite (simplify_container c (done ++ x :: rest)) by assumption.
  rewrite (for_each_raises _ done x rest ys e Hdone Hx). cbn [bind].
  destruct e; try reflexivity.
  exfalso. exact (simplify_not_KeyError _ _ Hx).
Qed.

Lemma detail_element_error c done x rest ys e :
  (c = VList (done ++ x :: rest) \/ c = VTuple (done ++ x :: rest)) ->
  Forall2 (fun x y => _detail rt detailers x = Ok y) done ys ->
  _detail rt detailers x = Raise e ->
  _detail rt detailers c = Raise e.
Proof.
  intros Hc Hdone Hx.
  rewrite (detail_sequence c (done ++ x :: rest)) by assumption.
  rewrite (for_each_raises _ done x rest ys e Hdone Hx). reflexivity.
Qed.

Lemma detail_sequence_inv c xs r :
  (c = VList xs \/ c = VTuple xs) ->
  _detail rt detailers c = Ok r ->
  exists ys,
    r = VList ys /\
    Forall2 (fun x y => _detail rt detailers x = Ok y) xs ys.
Proof.
  intros Hc. rewrite (detail_sequence c xs) by assumption.
  destruct (for_each (_detail rt detailers) xs) as [ys|e] eqn:Hfor;
    cbn [bind]; [| discriminate].
  intros [= <-]. exists ys. split; [reflexivity |].
  apply for_each_Ok_inv. assumption.
Qed.

Lemma detail_simplify_split xs zs :
  Forall2 (fun x z => detail_simplify rt x = Ok z) xs zs ->
  exists ys,
    Forall2 (fun x y => _simplify rt simplifiers x = Ok y) xs ys /\
    Forall2 (fun y z => _detail rt detailers y = Ok z) ys zs.
Proof.
  induction 1 as [|x z xs zs Hx _ (ys & Hs & Hd)].
  - exists []. split; constructor.
  - unfold detail_simplify in Hx.
    destruct (_simplify rt simplifiers x) as [y|e] eqn:Hy;
      cbn [bind] in Hx; [| discriminate].
    exists (y :: ys). split; constructor; assumption.
Qed.

Lemma simplified_is_simple v :
  (forall t w, pickle_dumps rt (VTensor t) = Ok w -> type_of w = TBytes) ->
  (forall t, pickle_dumps rt (VTensor t) <> Raise KeyError) ->
  set_free v = true ->
  forall w, _simplify rt simplifiers v = Ok w -> already_simple w = true.
Proof.
  intros Hbytes Hkey.
  assert (Hpass : forall v, simplifiers !! type_of v = None ->
            already_simple v = true ->
            forall w, _simplify rt simplifiers v = Ok w ->
                      already_simple w = true).
  { intros v' Hnone Hv' w. rewrite (_simplify_unregistered rt _ _ Hnone).
    intros [= <-]. assumption. }
  assert (Hall : forall xs ys,
            Forall (fun x => set_free x = true ->
                      forall w, _simplify rt simplifiers x = Ok w ->
                                already_simple w = true) xs ->
            forallb set_free xs = true ->
            Forall2 (fun x y => _simplify rt simplifiers x = Ok y) xs ys ->
            forallb already_simple ys = true).
  { intros xs ys IH Hfree Hxs. revert IH Hfree.
    induction Hxs as [|x y xs ys Hx _ IHxs]; intros IH Hfree;
      [reflexivity |].
    simpl in Hfree. apply andb_prop in Hfree as [Hfx Hfxs].
    inversion IH as [|? ? IHx IHrest]; subst.
    simpl. rewrite (IHx Hfx y Hx). simpl. apply IHxs; assumption. }
  induction v as [| | | | | |xs IH|xs IH|xs IH| |t| |cls base IH]
    using value_nested_ind; intros Hv;
    try (apply Hpass; [apply simplifiers_lookup | reflexivity]);
    try discriminate Hv.
  - intros w Hw.
    destruct (simplify_sequence_inv (VList xs) xs w) as (ys & Hc & Hxs);
      [tauto | assumption |].
    injection Hc as <-. simpl. apply (Hall xs ys); assumption.
  - intros w Hw.
    destruct (simplify_sequence_inv (VTuple xs) xs w) as (ys & Hc & Hxs);
      [tauto | assumption |].
    injection Hc as <-. simpl. apply (Hall xs ys); assumption.
  - intros w.
    rewrite (_simplify_registered rt simplifiers _ SimplifyTorchTensor)
      by apply simplifiers_lookup.
    cbn [run_simplifier]. unfold _simplify_torch_tensor.
    destruct (pickle_dumps rt (VTensor t)) as [w'|e] eqn:Hd; simpl.
    + intros [= <-]. apply Hbytes in Hd.
      destruct w'; try discriminate Hd. reflexivity.
    + destruct e; try discriminate. exfalso. exact (Hkey t Hd).
Qed.

End Routers.

(** ** Properties of the routers beyond the specification's claims *)

(** X1: an object in which the traversal meets no tensor and no set (nested
    lists and tuples of plain values, dictionaries and instances whatever
    they hold) is returned by [_simplify] unchanged. *)
Theorem simplify_leaves_simple_objects (rt : runtime) (v : value) :
  already_simple v = true -> _simplify rt simplifiers v = Ok v.
Proof. apply already_simple_fixed. Qed.

Lemma simplify_leaves_simple_objects_witness :
  let v := VTuple [VInt 1; VStr "a"; VFloat 2.5%float;
                   VList [VNone; VDict [(VStr "k", VTensor [x01])]]] in
  already_simple v = true /\ _simplify Sample.rt simplifiers v = Ok v.
Proof.
  intros v.
  assert (Hv : already_simple v = true) by reflexivity.
  exact (conj Hv (simplify_leaves_simple_objects Sample.rt v Hv)).
Defined.

(** X2: an object in which the traversal of [_detail] meets no byte string
    and no tuple is returned by [_detail] unchanged. *)
Theorem detail_leaves_detailed_objects (rt : runtime) (v : value) :
  already_detailed v = true -> _detail rt detailers v = Ok v.
Proof. apply already_detailed_fixed. Qed.

Lemma detail_leaves_detailed_objects_witness :
  let v := VList [VInt 1; VStr "a"; VList [VNone; VBool true];
                  VDict [(VStr "k", VBytes [x80; x01])]] in
  already_detailed v = true /\ _detail Sample.rt detailers v = Ok v.
Proof.
  intros v.
  assert (Hv : already_detailed v = true) by reflexivity.
  exact (conj Hv (detail_leaves_detailed_objects Sample.rt v Hv)).
Defined.

(** X3: without compression, an object that both traversals leave unchanged
    and that msgpack encodes and decodes faithfully comes back from
    [deserialize(serialize(obj, False), False)] as it was. *)
Theorem roundtrip_uncompressed_plain (rt : runtime) (v binary : value) :
  already_simple v = true ->
  already_detailed v = true ->
  msgpack_dumps rt v = Ok binary ->
  msgpack_loads rt binary = Ok v ->
  roundtrip rt v (Data (VBool false)) = Ok v.
Proof.
  intros Hs Hd Hdumps Hloads. unfold roundtrip.
  rewrite (serialize_False rt simplifiers v v binary);
    [| apply already_simple_fixed, Hs | exact Hdumps].
  cbn [bind]. unfold deserialize. cbn [truthy truth bind].
  rewrite Hloads. cbn [bind]. apply already_detailed_fixed, Hd.
Qed.

Lemma roundtrip_uncompressed_plain_witness :
  let v := VList [VInt 1; VStr "a"; VList [VNone; VBool true]] in
  let binary := VBytes [x93; x01; xa1; x61; x92; xc0; xc3] in
  already_simple v = true /\
  already_detailed v = true /\
  msgpack_dumps Sample.rt v = Ok binary /\
  msgpack_loads Sample.rt binary = Ok v /\
  roundtrip Sample.rt v (Data (VBool false)) = Ok v.
Proof.
  intros v binary.
  assert (Hs : already_simple v = true) by reflexivity.
  assert (Hd : already_detailed v = true) by reflexivity.
  assert (Hdumps : msgpack_dumps Sample.rt v = Ok binary)
    by (vm_compute; reflexivity).
  assert (Hloads : msgpack_loads Sample.rt binary = Ok v)
    by (vm_compute; reflexivity).
  exact (conj Hs (conj Hd (conj Hdumps (conj Hloads
           (roundtrip_uncompressed_plain Sample.rt v binary
              Hs Hd Hdumps Hloads))))).
Defined.

(** X4: whatever is registered and whatever the registered transforms raise,
    [_simplify] never raises [KeyError]. *)
Theorem simplify_never_raises_KeyError
    (rt : runtime) (reg : gmap pytype simplifier) (obj : value) :
  _simplify rt reg obj <> Raise KeyError.
Proof. apply simplify_not_KeyError. Qed.

(** X5: when [_simplify] returns on a list or a tuple, the result is a list,
    respectively a tuple, of the same length, whose elements are the results
    of [_simplify] on the elements at the same positions. *)
Theorem simplify_sequence_shape
    (rt : runtime) (c : value) (xs : list value) (r : value) :
  (c = VList xs \/ c = VTuple xs) ->
  _simplify rt simplifiers c = Ok r ->
  exists ys,
    (r = VList ys \/ r = VTuple ys) /\
    type_of r = type_of c /\
    length ys = length xs /\
    Forall2 (fun x y => _simplify rt simplifiers x = Ok y) xs ys.
Proof.
  intros Hc Hr.
  destruct (simplify_sequence_inv rt c xs r Hc Hr) as (ys & Hy & Hxs).
  exists ys.
  assert (Hlen : length ys = length xs)
    by (symmetry; eapply Forall2_length; eassumption).
  destruct Hc as [-> | ->]; injection Hy as <-; auto.
Qed.

Lemma simplify_sequence_shape_witness :
  let xs := [VTensor [x01]; VInt 2] in
  let c := VTuple xs in
  let r := VTuple [VBytes [x80; x01]; VInt 2] in
  (c = VList xs \/ c = VTuple xs) /\
  _simplify Sample.rt simplifiers c = Ok r /\
  exists ys,
    (r = VList ys \/ r = VTuple ys) /\
    type_of r = type_of c /\
    length ys = length xs /\
    Forall2 (fun x y => _simplify Sample.rt simplifiers x = Ok y) xs ys.
Proof.
  intros xs c r.
  assert (Hc : c = VList xs \/ c = VTuple xs) by (right; reflexivity).
  assert (Hr : _simplify Sample.rt simplifiers c = Ok r)
    by (vm_compute; reflexivity).
  exact (conj Hc (conj Hr (simplify_sequence_shape Sample.rt c xs r Hc Hr))).
Defined.

(** X6: [_simplify] changes the class of tensors only: when it returns on an
    object that is not a tensor, the result has the class of the object (a
    list stays a list, a tuple a tuple, a set a set). *)
Theorem simplify_keeps_class (rt : runtime) (v w : value) :
  type_of v <> TTensor ->
  _simplify rt simplifiers v = Ok w ->
  type_of w = type_of v.
Proof. apply simplify_class. Qed.

Lemma simplify_keeps_class_witness :
  let v := VSet [VTensor [x01]; VInt 2] in
  let w := VSet [VBytes [x80; x01]; VInt 2] in
  type_of v <> TTensor /\
  _simplify Sample.rt simplifiers v = Ok w /\
  type_of w = type_of v.
Proof.
  intros v w.
  assert (Hv : type_of v <> TTensor) by discriminate.
  assert (Hw : _simplify Sample.rt simplifiers v = Ok w)
    by (vm_compute; reflexivity).
  exact (conj Hv (conj Hw (simplify_keeps_class Sample.rt v w Hv Hw))).
Defined.

(** X7: when [_simplify] raises on an element of a list, tuple or set and
    returned on the elements before it, [_simplify] on the container raises
    the same exception: no partly simplified container is returned. *)
Theorem simplify_container_element_error
    (rt : runtime) (c : value) (done : list value) (x : value)
    (rest ys : list value) (e : exn) :
  (c = VList (done ++ x :: rest) \/ c = VTuple (done ++ x :: rest)
   \/ c = VSet (done ++ x :: rest)) ->
  Forall2 (fun x y => _simplify rt simplifiers x = Ok y) done ys ->
  _simplify rt simplifiers x = Raise e ->
  _simplify rt simplifiers c = Raise e.
Proof. apply simplify_element_error. Qed.

Lemma simplify_container_element_error_witness :
  let done := [VInt 1; VTensor [x07]] in
  let x := VTensor [] in
  let rest := [VStr "a"] in
  let ys := [VInt 1; VBytes [x80; x07]] in
  let c := VList (done ++ x :: rest) in
  (c = VList (done ++ x :: rest) \/ c = VTuple (done ++ x :: rest)
   \/ c = VSet (done ++ x :: rest)) /\
  Forall2 (fun x y => _simplify refusing_rt simplifiers x = Ok y) done ys /\
  _simplify refusing_rt simplifiers x = Raise RuntimeError /\
  _simplify refusing_rt simplifiers c = Raise RuntimeError.
Proof.
  intros done x rest ys c.
  assert (Hc : c = VList (done ++ x :: rest) \/ c = VTuple (done ++ x :: rest)
               \/ c = VSet (done ++ x :: rest)) by (left; reflexivity).
  assert (Hdone : Forall2
            (fun x y => _simplify refusing_rt simplifiers x = Ok y) done ys).
  { repeat constructor; vm_compute; reflexivity. }
  assert (Hx : _simplify refusing_rt simplifiers x = Raise RuntimeError)
    by (vm_compute; reflexivity).
  exact (conj Hc (conj Hdone (conj Hx
           (simplify_container_element_error refusing_rt c done x rest ys
              RuntimeError Hc Hdone Hx)))).
Defined.

(** X8: when [_detail] raises on an element of a list or tuple and returned
    on the elements before it, [_detail] on the container raises the same
    exception, [KeyError] included. *)
Theorem detail_sequence_element_error
    (rt : runtime) (c : value) (done : list value) (x : value)
    (rest ys : list value) (e : exn) :
  (c = VList (done ++ x :: rest) \/ c = VTuple (done ++ x :: rest)) ->
  Forall2 (fun x y => _detail rt detailers x = Ok y) done ys ->
  _detail rt detailers x = Raise e ->
  _detail rt detailers c = Raise e.
Proof. apply detail_element_error. Qed.

Lemma detail_sequence_element_error_witness :
  let done := [VBytes [x80; x01]] in
  let x := VBytes [x68; x69] in
  let rest := [VInt 3] in
  let ys := [VTensor [x01]] in
  let c := VList (done ++ x :: rest) in
  (c = VList (done ++ x :: rest) \/ c = VTuple (done ++ x :: rest)) /\
  Forall2 (fun x y => _detail Sample.rt detailers x = Ok y) done ys /\
  _detail Sample.rt detailers x = Raise UnpicklingError /\
  _detail Sample.rt detailers c = Raise UnpicklingError.
Proof.
  intros done x rest ys c.
  assert (Hc : c = VList (done ++ x :: rest)
               \/ c = VTuple (done ++ x :: rest)) by (left; reflexivity).
  assert (Hdone : Forall2
            (fun x y => _detail Sample.rt detailers x = Ok y) done ys).
  { repeat constructor; vm_compute; reflexivity. }
  assert (Hx : _detail Sample.rt detailers x = Raise UnpicklingError)
    by (vm_compute; reflexivity).
  exact (conj Hc (conj Hdone (conj Hx
           (detail_sequence_element_error Sample.rt c done x rest ys
              UnpicklingError Hc Hdone Hx)))).
Defined.

(** X9: when [_detail] returns on a list or a tuple, the result is a list of
    the same length whose elements are the results of [_detail] on the
    elements at the same positions. *)
Theorem detail_sequence_shape
    (rt : runtime) (c : value) (xs : list value) (r : value) :
  (c = VList xs \/ c = VTuple xs) ->
  _detail rt detailers c = Ok r ->
  exists ys,
    r = VList ys /\
    length ys = length xs /\
    Forall2 (fun x y => _detail rt detailers x = Ok y) xs ys.
Proof.
  intros Hc Hr.
  destruct (detail_sequence_inv rt c xs r Hc Hr) as (ys & -> & Hxs).
  exists ys. repeat split; [| assumption].
  symmetry. eapply Forall2_length. eassumption.
Qed.

Lemma detail_sequence_shape_witness :
  let xs := [VBytes [x80; x01]; VTuple [VInt 2]] in
  let c := VTuple xs in
  let r := VList [VTensor [x01]; VList [VInt 2]] in
  (c = VList xs \/ c = VTuple xs) /\
  _detail Sample.rt detailers c = Ok r /\
  exists ys,
    r = VList ys /\
    length ys = length xs /\
    Forall2 (fun x y => _detail Sample.rt detailers x = Ok y) xs ys.
Proof.
  intros xs c r.
  assert (Hc : c = VList xs \/ c = VTuple xs) by (right; reflexivity).
  assert (Hr : _detail Sample.rt detailers c = Ok r)
    by (vm_compute; reflexivity).
  exact (conj Hc (conj Hr (detail_sequence_shape Sample.rt c xs r Hc Hr))).
Defined.

(** X10: a tensor that pickle turns into a byte string and reads back from it
    survives [_simplify] followed by [_detail]. *)
Theorem tensor_detail_simplify
    (rt : runtime) (t : tensor) (blob : list byte) :
  pickle_dumps rt (VTensor t) = Ok (VBytes blob) ->
  pickle_loads rt (VBytes blob) = Ok (VTensor t) ->
  _simplify rt simplifiers (VTensor t) = Ok (VBytes blob) /\
  detail_simplify rt (VTensor t) = Ok (VTensor t).
Proof.
  intros Hdumps Hloads.
  assert (Hs : _simplify rt simplifiers (VTensor t) = Ok (VBytes blob)).
  { rewrite (_simplify_registered rt simplifiers _ SimplifyTorchTensor)
      by apply simplifiers_lookup.
    cbn [run_simplifier]. unfold _simplify_torch_tensor.
    rewrite Hdumps. reflexivity. }
  split; [exact Hs |].
  unfold detail_simplify. rewrite Hs. cbn [bind].
  rewrite (_detail_registered rt detailers _ DetailTorchTensor)
    by apply detailers_lookup.
  exact Hloads.
Qed.

Lemma tensor_detail_simplify_witness :
  let t := [x01; x02; x03] in
  let blob := x80 :: t in
  pickle_dumps Sample.rt (VTensor t) = Ok (VBytes blob) /\
  pickle_loads Sample.rt (VBytes blob) = Ok (VTensor t) /\
  _simplify Sample.rt simplifiers (VTensor t) = Ok (VBytes blob) /\
  detail_simplify Sample.rt (VTensor t) = Ok (VTensor t).
Proof.
  intros t blob.
  assert (Hdumps : pickle_dumps Sample.rt (VTensor t) = Ok (VBytes blob))
    by reflexivity.
  assert (Hloads : pickle_loads Sample.rt (VBytes blob) = Ok (VTensor t))
    by reflexivity.
  exact (conj Hdumps (conj Hloads
           (tensor_detail_simplify Sample.rt t blob Hdumps Hloads))).
Defined.

(** X11: [_simplify] followed by [_detail] on a list or a tuple whose
    elements [xs] come back as [zs] gives the list [zs]: a list comes back as
    a list, a tuple comes back as a list too. *)
Theorem sequence_detail_simplify
    (rt : runtime) (xs zs : list value) :
  Forall2 (fun x z => detail_simplify rt x = Ok z) xs zs ->
  detail_simplify rt (VList xs) = Ok (VList zs) /\
  detail_simplify rt (VTuple xs) = Ok (VList zs).
Proof.
  intros Hxs.
  destruct (detail_simplify_split rt xs zs Hxs) as (ys & Hs & Hd).
  apply for_each_Forall2 in Hd.
  unfold detail_simplify. split.
  - rewrite (simplify_sequence_Ok rt (VList xs) xs ys) by tauto.
    cbn [type_of construct bind].
    rewrite (detail_sequence rt (VList ys) ys) by tauto.
    rewrite Hd. reflexivity.
  - rewrite (simplify_sequence_Ok rt (VTuple xs) xs ys) by tauto.
    cbn [type_of construct bind].
    rewrite (detail_sequence rt (VTuple ys) ys) by tauto.
    rewrite Hd. reflexivity.
Qed.

Lemma sequence_detail_simplify_witness :
  let xs := [VTensor [x01]; VInt 2; VTuple [VTensor [x03]]] in
  let zs := [VTensor [x01]; VInt 2; VList [VTensor [x03]]] in
  Forall2 (fun x z => detail_simplify Sample.rt x = Ok z) xs zs /\
  detail_simplify Sample.rt (VList xs) = Ok (VList zs) /\
  detail_simplify Sample.rt (VTuple xs) = Ok (VList zs).
Proof.
  intros xs zs.
  assert (Hxs : Forall2
            (fun x z => detail_simplify Sample.rt x = Ok z) xs zs).
  { repeat constructor; vm_compute; reflexivity. }
  exact (conj Hxs (sequence_detail_simplify Sample.rt xs zs Hxs)).
Defined.

(** X12: an object whose class has no simplifier and that msgpack refuses
    makes [serialize] raise msgpack's exception, whatever the compression
    flag: the object is handed to msgpack as it is, before the flag is
    looked at. *)
Theorem serialize_unsupported_object
    (rt : runtime) (obj : value) (flag : argument) (e : exn) :
  simplifiers !! type_of obj = None ->
  msgpack_dumps rt obj = Raise e ->
  serialize rt simplifiers obj flag = Raise e.
Proof.
  intros Hnone Hdumps. unfold serialize.
  rewrite (_simplify_unregistered rt simplifiers obj Hnone). cbn [bind].
  rewrite Hdumps. reflexivity.
Qed.

Lemma serialize_unsupported_object_witness :
  let obj := VInstance "Foo" VObject in
  simplifiers !! type_of obj = None /\
  msgpack_dumps Sample.rt obj = Raise TypeError /\
  serialize Sample.rt simplifiers obj (Data (VBool false)) = Raise TypeError /\
  serialize Sample.rt simplifiers obj (Func (compress Sample.rt))
  = Raise TypeError.
Proof.
  intros obj.
  assert (Hnone : simplifiers !! type_of obj = None)
    by apply simplifiers_lookup.
  assert (Hdumps : msgpack_dumps Sample.rt obj = Raise TypeError)
    by reflexivity.
  exact (conj Hnone (conj Hdumps (conj
           (serialize_unsupported_object Sample.rt obj (Data (VBool false))
              TypeError Hnone Hdumps)
           (serialize_unsupported_object Sample.rt obj
              (Func (compress Sample.rt)) TypeError Hnone Hdumps)))).
Defined.

(** X13: when the caller binds the parameter [compress] of [serialize] to the
    compression function, and [decompress] restores what it compressed, the
    compressed round trip gives what the uncompressed round trip gives. *)
Theorem roundtrip_with_compress_function
    (rt : runtime) (obj simple binary compressed : value) :
  _simplify rt simplifiers obj = Ok simple ->
  msgpack_dumps rt simple = Ok binary ->
  compress rt binary = Ok compressed ->
  decompress rt compressed = Ok binary ->
  roundtrip rt obj (Func (compress rt))
  = roundtrip rt obj (Data (VBool false)).
Proof.
  intros Hs Hm Hc Hd. unfold roundtrip.
  rewrite (serialize_with_function rt simplifiers obj simple binary Hs Hm).
  rewrite (serialize_False rt simplifiers obj simple binary Hs Hm).
  rewrite Hc. cbn [bind]. unfold deserialize. cbn [truthy truth bind].
  rewrite Hd. reflexivity.
Qed.

Lemma roundtrip_with_compress_function_witness :
  let obj := VList [VTensor [x01]; VStr "a"] in
  let simple := VList [VBytes [x80; x01]; VStr "a"] in
  let binary := VBytes [x92; xc4; x02; x80; x01; xa1; x61] in
  let compressed :=
    VBytes [x04; x22; x4d; x18; x92; xc4; x02; x80; x01; xa1; x61] in
  _simplify Sample.rt simplifiers obj = Ok simple /\
  msgpack_dumps Sample.rt simple = Ok binary /\
  compress Sample.rt binary = Ok compressed /\
  decompress Sample.rt compressed = Ok binary /\
  roundtrip Sample.rt obj (Func (compress Sample.rt))
  = roundtrip Sample.rt obj (Data (VBool false)) /\
  roundtrip Sample.rt obj (Data (VBool false)) = Ok obj.
Proof.
  intros obj simple binary compressed.
  assert (Hs : _simplify Sample.rt simplifiers obj = Ok simple)
    by (vm_compute; reflexivity).
  assert (Hm : msgpack_dumps Sample.rt simple = Ok binary)
    by (vm_compute; reflexivity).
  assert (Hc : compress Sample.rt binary = Ok compressed) by reflexivity.
  assert (Hd : decompress Sample.rt compressed = Ok binary) by reflexivity.
  refine (conj Hs (conj Hm (conj Hc (conj Hd (conj
            (roundtrip_with_compress_function Sample.rt obj simple binary
               compressed Hs Hm Hc Hd) _))))).
  vm_compute. reflexivity.
Defined.

(** X14: with a pickler that turns tensors into byte strings (and does not
    raise [KeyError] on them), [_simplify] is idempotent on objects in which
    the traversal meets no set: what it returns it returns unchanged when
    applied again. *)
Theorem simplify_idempotent (rt : runtime) (v w : value) :
  (forall t b, pickle_dumps rt (VTensor t) = Ok b -> type_of b = TBytes) ->
  (forall t, pickle_dumps rt (VTensor t) <> Raise KeyError) ->
  set_free v = true ->
  _simplify rt simplifiers v = Ok w ->
  _simplify rt simplifiers w = Ok w.
Proof.
  intros Hbytes Hkey Hv Hw.
  apply already_simple_fixed.
  exact (simplified_is_simple rt v Hbytes Hkey Hv w Hw).
Qed.

Lemma simplify_idempotent_witness :
  let v := VList [VTensor [x01]; VTuple [VTensor [x02]; VStr "a"]] in
  let w := VList [VBytes [x80; x01]; VTuple [VBytes [x80; x02]; VStr "a"]] in
  (forall t b, pickle_dumps Sample.rt (VTensor t) = Ok b ->
               type_of b = TBytes) /\
  (forall t, pickle_dumps Sample.rt (VTensor t) <> Raise KeyError) /\
  set_free v = true /\
  _simplify Sample.rt simplifiers v = Ok w /\
  _simplify Sample.rt simplifiers w = Ok w.
Proof.
  intros v w.
  assert (Hbytes : forall t b, pickle_dumps Sample.rt (VTensor t) = Ok b ->
                               type_of b = TBytes).
  { intros t b [= <-]. reflexivity. }
  assert (Hkey : forall t,
            pickle_dumps Sample.rt (VTensor t) <> Raise KeyError)
    by (intros t; discriminate).
  assert (Hv : set_free v = true) by reflexivity.
  assert (Hw : _simplify Sample.rt simplifiers v = Ok w)
    by (vm_compute; reflexivity).
  exact (conj Hbytes (conj Hkey (conj Hv (conj Hw
           (simplify_idempotent Sample.rt v w Hbytes Hkey Hv Hw))))).
Defined.
